(** * echo-contrib/casbin: the authorization middleware, embedded and verified

    The package under study is [casbin/casbin.go]: a piece of HTTP glue that
    reads a subject out of a request (basic-auth user name, or the [sub]
    claim of a bearer token), and asks an injected enforcer whether
    (subject, path, method) is allowed.

    Layout of the development:
    - [Runtime]: Go's [error] values, panics, the event trace and the
      computation monad in which handlers run;
    - [Strings], [Base64], [Url], [Http], [Echo], [Engine]: the part of the
      imported packages the middleware calls.  The enforcer is a value of
      the development's choosing; [encoding/json] is a parameter;
    - [Casbin]: the package itself, function for function;
    - [Sample]: concrete enforcers and requests;
    - the properties. *)

From Stdlib Require Import ZArith NArith Ascii String DecimalString List Lia.
From stdpp Require Import base option list strings gmap.

Local Open Scope string_scope.
Local Open Scope list_scope.
Local Open Scope Z_scope.

(** ** Runtime: errors, panics, events, computations *)

Module Runtime.

(** Go's [error] interface, restricted to the dynamic types that reach the
    middleware.  [otherError] stands for any error value of a package that
    is not modelled (the enforcer's, a handler's); it is known by its
    [Error()] text only. *)
Inductive error : Type :=
| CorruptInputError (offset : Z)             (* encoding/base64 *)
| HTTPError (Code : Z) (Message : string)    (* echo.HTTPError, Internal == nil *)
| otherError (text : string).

(** [strconv.Itoa]. *)
Definition decimal (n : Z) : string := DecimalString.NilZero.string_of_int (Z.to_int n).

(** [err.Error()]. *)
Definition Error (e : error) : string :=
  match e with
  | CorruptInputError n => "illegal base64 data at input byte " ++ decimal n
  | HTTPError code message => "code=" ++ decimal code ++ ", message=" ++ message
  | otherError text => text
  end%string.

(** A run-time panic.  [IndexOutOfRange i n] is
    "index out of range [i] with length n". *)
Inductive runtime_error : Type :=
| IndexOutOfRange (index length : Z)
| NilDereference.

(** What a call does: it returns, or it panics. *)
Inductive outcome (A : Type) : Type :=
| Ret (a : A)
| Panic (e : runtime_error).
Arguments Ret {A} a.
Arguments Panic {A} e.

(** The observable actions of the middleware besides its result: a call of
    [log.Printf(format, arg)], and a call of the enforcer's
    [Enforce(sub, obj, act)]. *)
Inductive event : Type :=
| EvLogPrintf (format : string) (arg : error)
| EvEnforce (sub obj act : string).

(** A computation threads the trace of events so far, oldest first.  A
    panic keeps the events that happened before it. *)
Definition M (A : Type) : Type := list event -> outcome A * list event.

Definition ret {A} (a : A) : M A := fun t => (Ret a, t).

Definition bind {A B} (m : M A) (k : A -> M B) : M B :=
  fun t =>
    match m t with
    | (Ret a, t') => k a t'
    | (Panic e, t') => (Panic e, t')
    end.

Definition panic {A} (e : runtime_error) : M A := fun t => (Panic e, t).

Definition emit (ev : event) : M unit := fun t => (Ret tt, t ++ [ev]).

(** Lifting a call that may panic but has no other effect. *)
Definition lift {A} (o : outcome A) : M A := fun t => (o, t).

End Runtime.
Export Runtime.

(** The computations form a monad; stdpp's notations [x ← m; k] and
    [m;; k] sequence them. *)
#[global] Instance M_ret : MRet M := @ret.
#[global] Instance M_bind : MBind M := fun A B k m => bind m k.

(** ** strings *)

Module Strings.

(** [strings.Split(s, sep)] for a one-byte separator, the only way the
    package calls it: the substrings of [s] between the occurrences of
    [sep].  The result is never empty: a string without [sep] yields
    the one-element slice [[s]]. *)
Fixpoint Split (s : string) (sep : ascii) : list string :=
  match s with
  | EmptyString => [EmptyString]
  | String c s' =>
      if Ascii.eqb c sep then EmptyString :: Split s' sep
      else match Split s' sep with
           | hd :: tl => String c hd :: tl
           | [] => [String c EmptyString]
           end
  end.

(** [strings.Cut(s, sep)] for a one-byte separator: the text before and
    after the first [sep], and whether [sep] occurs; without it,
    [(s, "", false)]. *)
Fixpoint Cut (s : string) (sep : ascii) : string * string * bool :=
  match s with
  | EmptyString => (EmptyString, EmptyString, false)
  | String c s' =>
      if Ascii.eqb c sep then (EmptyString, s', true)
      else let '(before, after, found) := Cut s' sep in
           (String c before, after, found)
  end.

(** [strings.Join(elems, sep)] for a one-byte separator. *)
Fixpoint Join (elems : list string) (sep : ascii) : string :=
  match elems with
  | [] => EmptyString
  | [s] => s
  | s :: rest => (s ++ String sep (Join rest sep))%string
  end.

(** [strings.Contains(s, sep)] for a one-byte [sep]. *)
Fixpoint Contains (s : string) (sep : ascii) : bool :=
  match s with
  | EmptyString => false
  | String c s' => Ascii.eqb c sep || Contains s' sep
  end.

(** ASCII lower-casing of one byte. *)
Definition lower (c : ascii) : ascii :=
  let n := N_of_ascii c in
  if ((65 <=? n) && (n <=? 90))%N then ascii_of_N (n + 32) else c.

(** [ascii.EqualFold(s, t)]: equal up to ASCII case. *)
Fixpoint EqualFold (s t : string) : bool :=
  match s, t with
  | EmptyString, EmptyString => true
  | String a s', String b t' => Ascii.eqb (lower a) (lower b) && EqualFold s' t'
  | _, _ => false
  end.

(** [s[:n]] and [s[n:]] for [n <= len(s)]. *)
Fixpoint take (n : nat) (s : string) : string :=
  match n, s with
  | S n', String c s' => String c (take n' s')
  | _, _ => EmptyString
  end.

Fixpoint drop (n : nat) (s : string) : string :=
  match n, s with
  | S n', String _ s' => drop n' s'
  | _, _ => s
  end.

End Strings.

(** ** encoding/base64 *)

Module Base64.

(** An encoding over the standard alphabet, with or without padding,
    not strict (trailing bits of a short last group are not checked). *)
Record Encoding : Type := { padChar : option ascii }.

Definition StdEncoding : Encoding := {| padChar := Some "="%char |}.
Definition RawStdEncoding : Encoding := {| padChar := None |}.

(** [enc.decodeMap]: the six-bit value of an alphabet byte
    ([A-Z], [a-z], [0-9], [+], [/]), [None] for the 0xff entries. *)
Definition decodeMap (c : ascii) : option N :=
  let n := N_of_ascii c in
  if ((65 <=? n) && (n <=? 90))%N then Some (n - 65)%N
  else if ((97 <=? n) && (n <=? 122))%N then Some (n - 97 + 26)%N
  else if ((48 <=? n) && (n <=? 57))%N then Some (n - 48 + 52)%N
  else if (n =? 43)%N then Some 62%N
  else if (n =? 47)%N then Some 63%N
  else None.

Definition is_newline (c : ascii) : bool :=
  Ascii.eqb c "010"%char || Ascii.eqb c "013"%char.

Definition is_pad (enc : Encoding) (c : ascii) : bool :=
  match padChar enc with
  | Some p => Ascii.eqb c p
  | None => false
  end.

Definition byte_of (n : N) : ascii := ascii_of_N (N.land n 255).

(** The bytes of a group of [dlen] six-bit values [dbuf] (missing ones
    are 0): [val := d0<<18 | d1<<12 | d2<<6 | d3], of which the first
    [dlen - 1] bytes are kept. *)
Definition quantum_bytes (dbuf : list N) : list ascii :=
  let d i := nth i dbuf 0%N in
  let val := N.lor (N.lor (N.shiftl (d 0%nat) 18) (N.shiftl (d 1%nat) 12))
                   (N.lor (N.shiftl (d 2%nat) 6) (d 3%nat)) in
  firstn (length dbuf - 1)
         [byte_of (N.shiftr val 16); byte_of (N.shiftr val 8); byte_of val].

(** Where the decoder is inside the current group of four. *)
Inductive state : Type :=
| Group (dbuf : list N)       (* reading six-bit values, [length dbuf < 4] *)
| SecondPad (dbuf : list N)   (* after [xx=]: the second [=] is due *)
| Tail (dbuf : list N).       (* padding complete: only newlines may follow *)

(** [enc.Decode], one input byte at a time; [si] is the index of the byte
    at the head of [src] and [out] the bytes decoded so far. *)
Fixpoint decode (enc : Encoding) (src : string) (si : Z) (st : state)
         (out : list ascii) : list ascii + error :=
  match src with
  | EmptyString =>
      match st with
      | Group [] => inl out
      | Group [_] => inr (CorruptInputError (si - 1))
      | Group dbuf =>
          match padChar enc with
          | Some _ => inr (CorruptInputError (si - Z.of_nat (length dbuf)))
          | None => inl (out ++ quantum_bytes dbuf)
          end
      | SecondPad _ => inr (CorruptInputError si)
      | Tail dbuf => inl (out ++ quantum_bytes dbuf)
      end
  | String c rest =>
      match st with
      | Group dbuf =>
          match decodeMap c with
          | Some v =>
              if (length dbuf =? 3)%nat
              then decode enc rest (si + 1) (Group []) (out ++ quantum_bytes (dbuf ++ [v]))
              else decode enc rest (si + 1) (Group (dbuf ++ [v])) out
          | None =>
              if is_newline c then decode enc rest (si + 1) st out
              else if is_pad enc c then
                match dbuf with
                | [] | [_] => inr (CorruptInputError si)
                | [_; _] => decode enc rest (si + 1) (SecondPad dbuf) out
                | _ => decode enc rest (si + 1) (Tail dbuf) out
                end
              else inr (CorruptInputError si)
          end
      | SecondPad dbuf =>
          if is_newline c then decode enc rest (si + 1) st out
          else if is_pad enc c then decode enc rest (si + 1) (Tail dbuf) out
          else inr (CorruptInputError (si - 1))
      | Tail dbuf =>
          if is_newline c then decode enc rest (si + 1) st out
          else inr (CorruptInputError si)
      end
  end.

(** A byte that stops the decoder: outside the alphabet, and no newline. *)
Definition foreign (c : ascii) : bool :=
  match decodeMap c with
  | Some _ => false
  | None => negb (is_newline c)
  end.

Fixpoint has_foreign (s : string) : bool :=
  match s with
  | EmptyString => false
  | String c s' => foreign c || has_foreign s'
  end.

(** [enc.DecodeString(s)]; on an error the code under study drops the
    bytes decoded so far, and so does the model. *)
Definition DecodeString (enc : Encoding) (s : string) : list ascii + error :=
  decode enc s 0 (Group []) [].

End Base64.

(** ** net/url and net/http *)

Module Url.
Record URL : Type := { Path : string; RawQuery : string }.
End Url.

Module Http.

Definition StatusForbidden : Z := 403.
Definition StatusInternalServerError : Z := 500.

(** The header is an [http.Header], that is a [map[string][]string]. *)
Record Request : Type := {
  Method : string;
  URL : Url.URL;
  Header : gmap string (list string);
  Host : string;
  RemoteAddr : string
}.

(** [h.Get(key)] for a key already in canonical form (as "Authorization"
    is): the first value stored under [key], or "" if there is none. *)
Definition Get (h : gmap string (list string)) (key : string) : string :=
  match h !! key with
  | Some (v :: _) => v
  | _ => EmptyString
  end.

(** [parseBasicAuth(auth)]: the credentials of "Basic <base64 of user:password>". *)
Definition parseBasicAuth (auth : string) : string * string * bool :=
  let prefix := "Basic " in
  if (String.length auth <? String.length prefix)%nat
     || negb (Strings.EqualFold (Strings.take (String.length prefix) auth) prefix)
  then (EmptyString, EmptyString, false)
  else
    match Base64.DecodeString Base64.StdEncoding (Strings.drop (String.length prefix) auth) with
    | inr _ => (EmptyString, EmptyString, false)
    | inl c =>
        let cs := string_of_list_ascii c in
        let '(username, password, ok) := Strings.Cut cs ":"%char in
        if negb ok then (EmptyString, EmptyString, false)
        else (username, password, true)
    end.

(** [r.BasicAuth()]. *)
Definition BasicAuth (r : Request) : string * string * bool :=
  let auth := Get (Header r) "Authorization" in
  if String.eqb auth EmptyString then (EmptyString, EmptyString, false)
  else parseBasicAuth auth.

End Http.

(** ** echo and echo/middleware *)

Module Echo.

(** [echo.Context], as far as a middleware can read it. *)
Record Context : Type := {
  Request : Http.Request;
  RoutePath : string;
  ParamValues : list string
}.

(** A handler returns an [error], [None] being [nil]. *)
Definition HandlerFunc : Type := Context -> M (option error).
Definition MiddlewareFunc : Type := HandlerFunc -> HandlerFunc.

(** [echo.NewHTTPError(code, message)]. *)
Definition NewHTTPError (code : Z) (message : string) : error :=
  HTTPError code message.

(** [echo.ErrForbidden = NewHTTPError(http.StatusForbidden)]; without a
    message argument the message is [http.StatusText(code)]. *)
Definition ErrForbidden : error := HTTPError Http.StatusForbidden "Forbidden".

(** [middleware.Skipper] and [middleware.DefaultSkipper]. *)
Definition Skipper : Type := Context -> bool.
Definition DefaultSkipper : Skipper := fun _ => false.

End Echo.

(** ** The policy engine (github.com/casbin/casbin/v2) *)

Module Engine.

(** A [*casbin.Enforcer] is known to the middleware by one method,
    [Enforce(rvals ...interface{}) (bool, error)], called on three
    strings.  The value below is the pointer together with the policy and
    role data it points to at the time of the call: what [Enforce]
    answers (or that it panics) on each triple. *)
Record Enforcer : Type := {
  Enforce : string -> string -> string -> outcome (bool * option error)
}.

(** The call, as an observable event. *)
Definition call_Enforce (e : Enforcer) (sub obj act : string) : M (bool * option error) :=
  emit (EvEnforce sub obj act);;
  lift (Enforce e sub obj act).

End Engine.

(** ** Package casbin *)

Module Casbin.
Import Echo.

Definition AuthenticationType : Type := Z.
Definition BasicAuth : AuthenticationType := 0.
Definition JwtAuth : AuthenticationType := 1.

Record Config : Type := {
  Skipper : option Echo.Skipper;      (* a func value, [None] is nil *)
  Enforcer : Engine.Enforcer;
  AuthType : AuthenticationType
}.

Record jwtClaims : Type := {
  Iss : string; Sub : string; Aud : string; Exp : string;
  Nbf : string; Iat : string; Jti : string
}.

(** [&jwtClaims{}]. *)
Definition jwtClaims_zero : jwtClaims :=
  {| Iss := EmptyString; Sub := EmptyString; Aud := EmptyString; Exp := EmptyString;
     Nbf := EmptyString; Iat := EmptyString; Jti := EmptyString |}.

(** What the package takes from its imports without the model fixing it:
    - [json_Unmarshal data v] is [json.Unmarshal(data, v)] for
      [v : *jwtClaims]: the struct after the call, and the error;
    - [nil_Enforcer] is the nil [*casbin.Enforcer], which is what
      [DefaultConfig] holds; what a call through it does is the engine's
      business. *)
Class Imports : Type := {
  json_Unmarshal : list ascii -> jwtClaims -> jwtClaims * option error;
  nil_Enforcer : Engine.Enforcer
}.

Section Package.
Context `{Imports}.

(** [DefaultConfig], a package variable, at its initial value. *)
Definition DefaultConfig : Config :=
  {| Skipper := Some DefaultSkipper; Enforcer := nil_Enforcer; AuthType := 0 |}.

(** [s[i]] on a slice: a panic when [i] is out of range. *)
Definition index (s : list string) (i : nat) : M string :=
  match s !! i with
  | Some x => ret x
  | None => panic (IndexOutOfRange (Z.of_nat i) (Z.of_nat (length s)))
  end.

Definition getUserNameBasicAuth (a : Config) (c : Context) : M string :=
  let '(username, _, _) := Http.BasicAuth (Request c) in
  ret username.

Definition getUserNameJwtAuth (a : Config) (c : Context) : M string :=
  let token := Http.Get (Http.Header (Request c)) "Authorization" in
  let splitToken := Strings.Split token "."%char in
  tokenBody ← index splitToken 1;
  match Base64.DecodeString Base64.RawStdEncoding tokenBody with
  | inr err =>
      emit (EvLogPrintf "token decode failed: %s" err);;
      ret EmptyString
  | inl body =>
      let jsonBody := jwtClaims_zero in
      let '(jsonBody, _) := json_Unmarshal body jsonBody in
      ret (Sub jsonBody)
  end.

Definition GetUserName (a : Config) (c : Context) : M string :=
  if AuthType a =? BasicAuth then getUserNameBasicAuth a c
  else if AuthType a =? JwtAuth then getUserNameJwtAuth a c
  else ret EmptyString.

Definition CheckPermission (a : Config) (c : Context) : M (bool * option error) :=
  user ← GetUserName a c;
  let method := Http.Method (Request c) in
  let path := Url.Path (Http.URL (Request c)) in
  Engine.call_Enforce (Enforcer a) user path method.

Definition is_nil (err : option error) : bool :=
  match err with None => true | Some _ => false end.

(** Calling a func value: a nil one panics. *)
Definition call_Skipper (f : option Echo.Skipper) (c : Context) : M bool :=
  match f with
  | Some skip => ret (skip c)
  | None => panic NilDereference
  end.

Definition MiddlewareWithConfig (config : Config) : MiddlewareFunc :=
  let config :=
    match Skipper config with
    | None => {| Skipper := Skipper DefaultConfig;
                 Enforcer := Enforcer config; AuthType := AuthType config |}
    | Some _ => config
    end in
  fun (next : HandlerFunc) (c : Context) =>
    skip ← call_Skipper (Skipper config) c;
    if skip : bool then next c
    else
      '(pass, err) ← CheckPermission config c;
      if is_nil err && pass then next c
      else match err with
           | Some e => ret (Some (NewHTTPError Http.StatusInternalServerError (Error e)))
           | None => ret (Some ErrForbidden)
           end : M (option error).

Definition Middleware (ce : Engine.Enforcer) : MiddlewareFunc :=
  let c := DefaultConfig in
  let c := {| Skipper := Skipper c; Enforcer := ce; AuthType := AuthType c |} in
  MiddlewareWithConfig c.

(** The skip predicate in force once [MiddlewareWithConfig] has filled
    in the default: the configured one, or [DefaultConfig]'s for nil. *)
Definition skips (config : Config) (c : Context) : bool :=
  match Skipper config with
  | Some skip => skip c
  | None => DefaultSkipper c
  end.

End Package.
End Casbin.

(** ** What the middleware reads from a request

    The value of the Authorization header, the URL path and the method. *)

Definition token (c : Echo.Context) : string :=
  Http.Get (Http.Header (Echo.Request c)) "Authorization".
Definition path (c : Echo.Context) : string := Url.Path (Http.URL (Echo.Request c)).
Definition method (c : Echo.Context) : string := Http.Method (Echo.Request c).

(** ** Sample data

    One instance of [Casbin.Imports], some enforcers and requests, on which
    the statements below are evaluated. *)

Module Sample.
Import Echo Casbin.

Definition quote : ascii := "034"%char.
Definition backslash : ascii := "092"%char.

(** Storing a member of the claims object into the struct field tagged
    with its name. *)
Definition store (key value : string) (v : jwtClaims) : jwtClaims :=
  if String.eqb key "iss" then
    {| Iss := value; Sub := Sub v; Aud := Aud v; Exp := Exp v; Nbf := Nbf v; Iat := Iat v; Jti := Jti v |}
  else if String.eqb key "sub" then
    {| Iss := Iss v; Sub := value; Aud := Aud v; Exp := Exp v; Nbf := Nbf v; Iat := Iat v; Jti := Jti v |}
  else if String.eqb key "aud" then
    {| Iss := Iss v; Sub := Sub v; Aud := value; Exp := Exp v; Nbf := Nbf v; Iat := Iat v; Jti := Jti v |}
  else if String.eqb key "exp" then
    {| Iss := Iss v; Sub := Sub v; Aud := Aud v; Exp := value; Nbf := Nbf v; Iat := Iat v; Jti := Jti v |}
  else if String.eqb key "nbf" then
    {| Iss := Iss v; Sub := Sub v; Aud := Aud v; Exp := Exp v; Nbf := value; Iat := Iat v; Jti := Jti v |}
  else if String.eqb key "iat" then
    {| Iss := Iss v; Sub := Sub v; Aud := Aud v; Exp := Exp v; Nbf := Nbf v; Iat := value; Jti := Jti v |}
  else if String.eqb key "jti" then
    {| Iss := Iss v; Sub := Sub v; Aud := Aud v; Exp := Exp v; Nbf := Nbf v; Iat := Iat v; Jti := value |}
  else v.

(** A decoder for a fragment of JSON: one object whose members are plain
    strings (printable ASCII, no escapes), written without white space.  It
    is not [encoding/json]: numbers, white space, escapes and keys in
    another letter case are refused here and accepted there.  The samples
    stay inside the fragment. *)
Inductive scanner : Type :=
| AtStart | AtOpen | InKey (k : string) | AtColon (k : string)
| AtValue (k : string) | InValue (k x : string) | AfterValue | AtKey | AtEnd.

Definition plain (c : ascii) : bool :=
  let n := N_of_ascii c in
  ((32 <=? n) && (n <? 127))%N && negb (Ascii.eqb c quote) && negb (Ascii.eqb c backslash).

Fixpoint scan (data : list ascii) (st : scanner) (v : jwtClaims) : option jwtClaims :=
  match data with
  | [] => match st with AtEnd => Some v | _ => None end
  | c :: rest =>
      match st with
      | AtStart => if Ascii.eqb c "{"%char then scan rest AtOpen v else None
      | AtOpen =>
          if Ascii.eqb c quote then scan rest (InKey EmptyString) v
          else if Ascii.eqb c "}"%char then scan rest AtEnd v else None
      | InKey k =>
          if Ascii.eqb c quote then scan rest (AtColon k) v
          else if plain c then scan rest (InKey (k ++ String c EmptyString)%string) v else None
      | AtColon k => if Ascii.eqb c ":"%char then scan rest (AtValue k) v else None
      | AtValue k => if Ascii.eqb c quote then scan rest (InValue k EmptyString) v else None
      | InValue k x =>
          if Ascii.eqb c quote then scan rest AfterValue (store k x v)
          else if plain c then scan rest (InValue k (x ++ String c EmptyString)%string) v else None
      | AfterValue =>
          if Ascii.eqb c ","%char then scan rest AtKey v
          else if Ascii.eqb c "}"%char then scan rest AtEnd v else None
      | AtKey => if Ascii.eqb c quote then scan rest (InKey EmptyString) v else None
      | AtEnd => None
      end
  end.

Definition Unmarshal (data : list ascii) (v : jwtClaims) : jwtClaims * option error :=
  match scan data AtStart v with
  | Some v' => (v', None)
  | None => (v, Some (otherError "invalid claims object"))
  end.

(** The imports of the samples; a call through the nil enforcer is taken
    to panic. *)
#[global] Instance imports : Imports := {|
  json_Unmarshal := Unmarshal;
  nil_Enforcer := {| Engine.Enforce := fun _ _ _ => Panic NilDereference |}
|}.

(** An enforcer over an access-control list: allowed iff the triple is
    listed. *)
Definition triple_eqb (x y : string * string * string) : bool :=
  let '(a, b, c) := x in let '(a', b', c') := y in
  String.eqb a a' && String.eqb b b' && String.eqb c c'.

Definition acl (rules : list (string * string * string)) : Engine.Enforcer :=
  {| Engine.Enforce := fun sub obj act =>
       Ret (existsb (triple_eqb (sub, obj, act)) rules, None) |}.

(** An enforcer whose evaluation fails. *)
Definition broken (text : string) : Engine.Enforcer :=
  {| Engine.Enforce := fun _ _ _ => Ret (false, Some (otherError text)) |}.

Definition policy : Engine.Enforcer :=
  acl [("alice", "/data", "GET"); (EmptyString, "/public", "GET")].

Definition request (method path : string) (authorization : list string) : Context :=
  {| Request := {| Http.Method := method;
                   Http.URL := {| Url.Path := path; Url.RawQuery := EmptyString |};
                   Http.Header := match authorization with
                                   | [] => ∅
                                   | _ => {[ "Authorization" := authorization ]}
                                   end;
                   Http.Host := "example.org";
                   Http.RemoteAddr := "192.0.2.1:4711" |};
     RoutePath := path;
     ParamValues := [] |}.

Definition config (e : Engine.Enforcer) (auth : AuthenticationType) : Config :=
  {| Skipper := None; Enforcer := e; AuthType := auth |}.

(** The next handler: it answers without an error and leaves no event. *)
Definition ok : HandlerFunc := fun _ => ret None.

(** Requests: alice with a bearer token whose payload is the object with
    the one member sub = alice; alice with basic credentials
    alice:secret; no credentials; a token whose payload is not base64; a
    token whose payload has an iss member only; a token without a dot. *)
Definition alice_bearer : Context :=
  request "GET" "/data" ["Bearer eyJhbGciOiJIUzI1NiJ9.eyJzdWIiOiJhbGljZSJ9.c2ln"].
Definition alice_basic : Context := request "GET" "/data" ["Basic YWxpY2U6c2VjcmV0"].
Definition anonymous : Context := request "GET" "/public" [].
Definition bad_bearer : Context := request "GET" "/public" ["Bearer h.@@@.s"].
Definition subless_bearer : Context :=
  request "GET" "/public" ["Bearer eyJhbGciOiJIUzI1NiJ9.eyJpc3MiOiJ4In0.c2ln"].
Definition dotless_bearer : Context := request "GET" "/data" ["Bearer abc"].

(** The payload of [alice_bearer]: an object with one member,
    sub = alice ([quoted] turns the apostrophes into double quotes). *)
Fixpoint quoted (s : string) : string :=
  match s with
  | EmptyString => EmptyString
  | String c s' => String (if Ascii.eqb c "'"%char then quote else c) (quoted s')
  end.

Definition claims_alice : string := quoted "{'sub':'alice'}".

(** A skip predicate: the health check is not mediated. *)
Definition skip_health : Echo.Skipper := fun c => String.eqb (path c) "/health".

(** More requests: alice's payload between another first segment and another
    signature; alice with the password wrong; a payload written in the
    URL-safe alphabet (it has a [-]); alice's token sent with POST. *)
Definition alice_forged : Context :=
  request "GET" "/data" ["Bearer bm9uZQ.eyJzdWIiOiJhbGljZSJ9.Zm9yZ2Vk"].
Definition alice_wrong_password : Context :=
  request "GET" "/data" ["Basic YWxpY2U6d3Jvbmc="].
Definition urlsafe_bearer : Context :=
  request "GET" "/public" ["Bearer eyJhbGciOiJIUzI1NiJ9.eyJzdWIiOiJib2J-PyJ9.c2ln"].
Definition alice_post : Context :=
  request "POST" "/data" ["Bearer eyJhbGciOiJIUzI1NiJ9.eyJzdWIiOiJhbGljZSJ9.c2ln"].

(** The claims of [urlsafe_bearer], an object with the one member
    sub = bob~?, and the same claims written in the standard alphabet (with
    a [+] where the URL-safe text has the [-]). *)
Definition claims_bob : string := quoted "{'sub':'bob~?'}".
Definition standard_bearer : Context :=
  request "GET" "/public" ["Bearer eyJhbGciOiJIUzI1NiJ9.eyJzdWIiOiJib2J+PyJ9.c2ln"].

End Sample.

(** * Properties *)

Import Echo Casbin.

(** Unfolding the monad. *)
Ltac unfold_M :=
  unfold mbind, mret, M_bind, M_ret, bind, ret, panic, emit, lift in *.

(** ** The imported functions on known inputs *)

Example Split_three_segments : Strings.Split "a.b.c" "."%char = ["a"; "b"; "c"].
Proof. reflexivity. Qed.

Example Split_without_separator : Strings.Split "abc" "."%char = ["abc"].
Proof. reflexivity. Qed.

Example Split_of_empty : Strings.Split EmptyString "."%char = [EmptyString].
Proof. reflexivity. Qed.

Example Split_trailing_separator : Strings.Split "a." "."%char = ["a"; EmptyString].
Proof. reflexivity. Qed.

(** The test vectors of RFC 4648, section 10. *)
Example DecodeString_rfc4648 :
  map (Base64.DecodeString Base64.StdEncoding)
      [EmptyString; "Zg=="; "Zm8="; "Zm9v"; "Zm9vYg=="; "Zm9vYmE="; "Zm9vYmFy"]
  = map (λ s, inl (list_ascii_of_string s))
        [EmptyString; "f"; "fo"; "foo"; "foob"; "fooba"; "foobar"].
Proof. vm_compute. reflexivity. Qed.

Example DecodeString_raw_rfc4648 :
  map (Base64.DecodeString Base64.RawStdEncoding)
      [EmptyString; "Zg"; "Zm8"; "Zm9v"; "Zm9vYg"; "Zm9vYmE"; "Zm9vYmFy"]
  = map (λ s, inl (list_ascii_of_string s))
        [EmptyString; "f"; "fo"; "foo"; "foob"; "fooba"; "foobar"].
Proof. vm_compute. reflexivity. Qed.

(** Padding is an error for the raw encoding, its absence for the padded
    one; a lone character is an error for both. *)
Example DecodeString_corrupt :
  Base64.DecodeString Base64.RawStdEncoding "Zg==" = inr (CorruptInputError 2) ∧
  Base64.DecodeString Base64.StdEncoding "Zg" = inr (CorruptInputError 0) ∧
  Base64.DecodeString Base64.StdEncoding "Zg=" = inr (CorruptInputError 3) ∧
  Base64.DecodeString Base64.StdEncoding "Zm8=x" = inr (CorruptInputError 4) ∧
  Base64.DecodeString Base64.RawStdEncoding "Z" = inr (CorruptInputError 0) ∧
  Base64.DecodeString Base64.RawStdEncoding "@@@" = inr (CorruptInputError 0).
Proof. vm_compute. repeat split. Qed.

Example BasicAuth_alice :
  Http.BasicAuth (Echo.Request Sample.alice_basic) = ("alice", "secret", true) ∧
  Http.BasicAuth (Echo.Request (Sample.request "GET" "/" ["basic YWxpY2U6c2VjcmV0"]))
  = ("alice", "secret", true) ∧
  Http.BasicAuth (Echo.Request Sample.anonymous) = (EmptyString, EmptyString, false) ∧
  Http.BasicAuth (Echo.Request Sample.alice_bearer) = (EmptyString, EmptyString, false).
Proof. vm_compute. repeat split. Qed.

Example Error_texts :
  Error (CorruptInputError 12) = "illegal base64 data at input byte 12" ∧
  Error Echo.ErrForbidden = "code=403, message=Forbidden".
Proof. vm_compute. split; reflexivity. Qed.

(** The middleware on the samples: allowed, denied, failed. *)
Example Middleware_samples :
  Casbin.MiddlewareWithConfig (Sample.config Sample.policy Casbin.JwtAuth)
    Sample.ok Sample.alice_bearer []
  = (Ret None, [EvEnforce "alice" "/data" "GET"]) ∧
  Casbin.Middleware Sample.policy Sample.ok (Sample.request "POST" "/data" ["Basic YWxpY2U6c2VjcmV0"]) []
  = (Ret (Some Echo.ErrForbidden), [EvEnforce "alice" "/data" "POST"]) ∧
  Casbin.Middleware (Sample.broken "invalid request size") Sample.ok Sample.anonymous []
  = (Ret (Some (HTTPError 500 "invalid request size")),
     [EvEnforce EmptyString "/public" "GET"]).
Proof. vm_compute. repeat split. Qed.

(** ** Splitting and cutting *)

Section StringLemmas.
Import Strings.

Lemma Split_not_nil (s : string) (sep : ascii) : Split s sep ≠ [].
Proof.
  induction s as [|c s IH]; simpl; [done|].
  destruct (Ascii.eqb c sep); [done|]. by destruct (Split s sep).
Qed.

Lemma Split_no_sep (s : string) (sep : ascii) :
  Contains s sep = false → Split s sep = [s].
Proof.
  induction s as [|c s IH]; simpl; [done|].
  intros [Hc Hs]%orb_false_iff. rewrite Hc, (IH Hs). done.
Qed.

Lemma append_String (c : ascii) (s t : string) :
  (String c s ++ t)%string = String c (s ++ t)%string.
Proof. reflexivity. Qed.

Lemma append_Empty_l (t : string) : (EmptyString ++ t)%string = t.
Proof. reflexivity. Qed.

Lemma append_Empty_r (s : string) : (s ++ EmptyString)%string = s.
Proof. induction s as [|c s IH]; [done|]. by rewrite append_String, IH. Qed.

Lemma Split_app (s0 s' : string) (sep : ascii) :
  Contains s0 sep = false →
  Split (s0 ++ String sep s') sep = s0 :: Split s' sep.
Proof.
  induction s0 as [|c s0 IH].
  - intros _. rewrite append_Empty_l. simpl. by rewrite Ascii.eqb_refl.
  - intros Hc. simpl in Hc. apply orb_false_iff in Hc as [Hc Hs].
    rewrite append_String. simpl. by rewrite Hc, (IH Hs).
Qed.

(** A string with a separator has a second segment. *)
Lemma Split_sep_second (s : string) (sep : ascii) :
  Contains s sep = true → ∃ seg, Split s sep !! 1%nat = Some seg.
Proof.
  induction s as [|c s IH]; simpl; [done|].
  destruct (Ascii.eqb c sep); simpl.
  - intros _. destruct (Split s sep) as [|hd tl] eqn:E; [by apply Split_not_nil in E|].
    by exists hd.
  - intros [seg Hseg]%IH. destruct (Split s sep) as [|hd tl]; [done|]. by exists seg.
Qed.

(** The segment between the first separator and the next one (or the end
    of the string) is the one at index 1. *)
Lemma Split_second (s0 seg rest : string) (sep : ascii) :
  Contains s0 sep = false →
  Contains seg sep = false →
  rest = EmptyString ∨ (∃ r, rest = String sep r) →
  Split (s0 ++ String sep (seg ++ rest)) sep !! 1%nat = Some seg.
Proof.
  intros H0 Hseg Hrest. rewrite (Split_app _ _ _ H0).
  destruct Hrest as [->|[r ->]].
  - by rewrite append_Empty_r, (Split_no_sep _ _ Hseg).
  - by rewrite (Split_app _ _ _ Hseg).
Qed.

(** [Split] undoes [Join]: its segments have no separator, and joined
    they give the string back. *)
Lemma Split_segments (s : string) (sep : ascii) :
  Forall (λ seg, Contains seg sep = false) (Split s sep).
Proof.
  induction s as [|c s IH]; simpl; [by repeat constructor|].
  destruct (Ascii.eqb c sep) eqn:Hc; [by constructor|].
  destruct (Split s sep) as [|hd tl]; [by repeat constructor; simpl; rewrite Hc|].
  inversion IH as [|? ? Hhd Htl]; subst.
  constructor; [|done]. simpl. by rewrite Hc, Hhd.
Qed.

Lemma Join_Split (s : string) (sep : ascii) : Join (Split s sep) sep = s.
Proof.
  induction s as [|c s IH]; simpl; [done|].
  destruct (Ascii.eqb_spec c sep) as [->|Hc].
  - destruct (Split s sep) as [|hd tl] eqn:E; [by apply Split_not_nil in E|].
    by rewrite <- IH.
  - destruct (Split s sep) as [|hd [|hd' tl]] eqn:E; [by apply Split_not_nil in E|..];
      by rewrite <- IH.
Qed.

Lemma Cut_app (u p : string) (sep : ascii) :
  Contains u sep = false →
  Cut (u ++ String sep p) sep = (u, p, true).
Proof.
  induction u as [|c u IH].
  - intros _. rewrite append_Empty_l. simpl. by rewrite Ascii.eqb_refl.
  - intros Hc. simpl in Hc. apply orb_false_iff in Hc as [Hc Hu].
    rewrite append_String. simpl. by rewrite Hc, (IH Hu).
Qed.

Lemma take_app (pre s : string) : take (String.length pre) (pre ++ s) = pre.
Proof.
  induction pre as [|c pre IH]; [by destruct s|].
  rewrite append_String. simpl. by rewrite IH.
Qed.

Lemma drop_app (pre s : string) : drop (String.length pre) (pre ++ s) = s.
Proof.
  induction pre as [|c pre IH]; [by destruct s|].
  rewrite append_String. simpl. by rewrite IH.
Qed.

Lemma length_append (s1 s2 : string) :
  String.length (s1 ++ s2) = (String.length s1 + String.length s2)%nat.
Proof.
  induction s1 as [|c s1 IH]; [done|].
  rewrite append_String. simpl. by rewrite IH.
Qed.

Lemma EqualFold_length (s t : string) :
  EqualFold s t = true → String.length s = String.length t.
Proof.
  revert t. induction s as [|a s IH]; intros [|b t]; simpl; try done.
  intros [_ Hst]%andb_true_iff. by rewrite (IH _ Hst).
Qed.

End StringLemmas.

(** ** Decoding *)

(** Without padding in the encoding, a byte outside the alphabet that is
    not a newline makes decoding fail, wherever it stands.  (The URL-safe
    alphabet's [-] and [_] are such bytes.) *)
Lemma decode_raw_foreign (s : string) (si : Z) (st : Base64.state) (out : list ascii) :
  Base64.has_foreign s = true →
  ∃ n, Base64.decode Base64.RawStdEncoding s si st out = inr (CorruptInputError n).
Proof.
  revert si st out. induction s as [|c s IH]; intros si st out; simpl; [done|].
  unfold Base64.foreign, Base64.is_pad. simpl.
  destruct st as [dbuf|dbuf|dbuf].
  - destruct (Base64.decodeMap c) as [v|]; simpl.
    + intros Hs. destruct (length dbuf =? 3)%nat; by apply IH.
    + destruct (Base64.is_newline c); simpl; [by apply IH|by eauto].
  - destruct (Base64.is_newline c); [|by eauto].
    intros Hs. apply IH. by destruct (Base64.decodeMap c).
  - destruct (Base64.is_newline c); [|by eauto].
    intros Hs. apply IH. by destruct (Base64.decodeMap c).
Qed.

Lemma DecodeString_raw_foreign (s : string) :
  Base64.has_foreign s = true →
  ∃ n, Base64.DecodeString Base64.RawStdEncoding s = inr (CorruptInputError n).
Proof. apply decode_raw_foreign. Qed.

(** ** The package, function by function *)

Section PackageLemmas.
Context `{Imports}.

Lemma index_Some (s : list string) (i : nat) (x : string) (t : list event) :
  s !! i = Some x → index s i t = (Ret x, t).
Proof. unfold index. by intros ->. Qed.

Lemma JwtAuth_no_separator (a : Config) (c : Context) (t : list event) :
  Strings.Contains (token c) "."%char = false →
  getUserNameJwtAuth a c t = (Panic (IndexOutOfRange 1 1), t).
Proof.
  intros Hno. unfold getUserNameJwtAuth. fold (token c).
  rewrite (Split_no_sep _ _ Hno). reflexivity.
Qed.

Lemma JwtAuth_undecodable (a : Config) (c : Context) (t : list event)
      (seg : string) (err : error) :
  Strings.Split (token c) "."%char !! 1%nat = Some seg →
  Base64.DecodeString Base64.RawStdEncoding seg = inr err →
  getUserNameJwtAuth a c t
  = (Ret EmptyString, t ++ [EvLogPrintf "token decode failed: %s" err]).
Proof.
  intros Hseg Hdec. unfold getUserNameJwtAuth. fold (token c).
  unfold_M. rewrite (index_Some _ _ _ _ Hseg), Hdec. reflexivity.
Qed.

Lemma JwtAuth_decoded (a : Config) (c : Context) (t : list event)
      (seg : string) (body : list ascii) :
  Strings.Split (token c) "."%char !! 1%nat = Some seg →
  Base64.DecodeString Base64.RawStdEncoding seg = inl body →
  getUserNameJwtAuth a c t = (Ret (Sub (json_Unmarshal body jwtClaims_zero).1), t).
Proof.
  intros Hseg Hdec. unfold getUserNameJwtAuth. fold (token c).
  unfold_M. rewrite (index_Some _ _ _ _ Hseg), Hdec.
  by destruct (json_Unmarshal body jwtClaims_zero).
Qed.

Lemma BasicAuth_username (a : Config) (c : Context) (t : list event) :
  getUserNameBasicAuth a c t = (Ret (Http.BasicAuth (Request c)).1.1, t).
Proof.
  unfold getUserNameBasicAuth. by destruct (Http.BasicAuth (Request c)) as [[u p] ok].
Qed.

(** Without its flag set, [BasicAuth()] has no user name to give. *)
Lemma BasicAuth_not_ok (r : Http.Request) :
  (Http.BasicAuth r).2 = false → (Http.BasicAuth r).1.1 = EmptyString.
Proof.
  unfold Http.BasicAuth, Http.parseBasicAuth.
  repeat (case_match; simpl; try done).
Qed.

Lemma GetUserName_BasicAuth (a : Config) (c : Context) :
  AuthType a = BasicAuth → GetUserName a c = getUserNameBasicAuth a c.
Proof. unfold GetUserName. by intros ->. Qed.

Lemma GetUserName_JwtAuth (a : Config) (c : Context) :
  AuthType a = JwtAuth → GetUserName a c = getUserNameJwtAuth a c.
Proof. unfold GetUserName. by intros ->. Qed.

Lemma GetUserName_other (a : Config) (c : Context) :
  AuthType a ≠ BasicAuth → AuthType a ≠ JwtAuth →
  GetUserName a c = ret EmptyString.
Proof.
  unfold GetUserName. intros H0 H1.
  destruct (Z.eqb_spec (AuthType a) BasicAuth); [done|].
  by destruct (Z.eqb_spec (AuthType a) JwtAuth).
Qed.

Lemma CheckPermission_unfold (a : Config) (c : Context) (t : list event) :
  CheckPermission a c t =
  match GetUserName a c t with
  | (Ret user, t') =>
      (Engine.Enforce (Enforcer a) user (path c) (method c),
       t' ++ [EvEnforce user (path c) (method c)])
  | (Panic e, t') => (Panic e, t')
  end.
Proof.
  unfold CheckPermission, Engine.call_Enforce. unfold_M.
  by destruct (GetUserName a c t) as [[user|e] t'].
Qed.

(** [CheckPermission] reads two fields of its receiver. *)
Lemma CheckPermission_config (a a' : Config) (c : Context) (t : list event) :
  AuthType a = AuthType a' → Enforcer a = Enforcer a' →
  CheckPermission a c t = CheckPermission a' c t.
Proof.
  intros Hty Hen. rewrite !CheckPermission_unfold, Hen.
  unfold GetUserName, getUserNameBasicAuth, getUserNameJwtAuth. by rewrite Hty.
Qed.

Lemma MiddlewareWithConfig_unfold
      (config : Config) (next : HandlerFunc) (c : Context) (t : list event) :
  MiddlewareWithConfig config next c t =
  if skips config c then next c t
  else match CheckPermission config c t with
       | (Ret (pass, err), t') =>
           if is_nil err && pass then next c t'
           else match err with
                | Some e => (Ret (Some (NewHTTPError Http.StatusInternalServerError (Error e))), t')
                | None => (Ret (Some ErrForbidden), t')
                end
       | (Panic e, t') => (Panic e, t')
       end.
Proof.
  unfold MiddlewareWithConfig, skips.
  destruct config as [[skip|] en ty]; simpl; unfold_M; simpl.
  - destruct (skip c); [done|].
    destruct (CheckPermission _ c t) as [[[pass err]|e] t']; [|done].
    destruct (is_nil err && pass); [done|]. by destruct err.
  - unfold DefaultSkipper.
    rewrite (CheckPermission_config _ {| Skipper := None; Enforcer := en; AuthType := ty |}) by done.
    destruct (CheckPermission _ c t) as [[[pass err]|e] t']; [|done].
    destruct (is_nil err && pass); [done|]. by destruct err.
Qed.

(** The events of the past are kept, and never read. *)
Lemma GetUserName_frame (a : Config) (c : Context) (t : list event) :
  GetUserName a c t = ((GetUserName a c []).1, t ++ (GetUserName a c []).2).
Proof.
  unfold GetUserName.
  destruct (AuthType a =? BasicAuth).
  { rewrite !BasicAuth_username. simpl. by rewrite app_nil_r. }
  destruct (AuthType a =? JwtAuth); [|unfold_M; simpl; by rewrite app_nil_r].
  destruct (Strings.Contains (token c) "."%char) eqn:Hsep.
  - destruct (Split_sep_second _ _ Hsep) as [seg Hseg].
    destruct (Base64.DecodeString Base64.RawStdEncoding seg) as [body|err] eqn:Hdec.
    + rewrite !(JwtAuth_decoded _ _ _ _ _ Hseg Hdec). simpl. by rewrite app_nil_r.
    + rewrite !(JwtAuth_undecodable _ _ _ _ _ Hseg Hdec). done.
  - rewrite !(JwtAuth_no_separator _ _ _ Hsep). simpl. by rewrite app_nil_r.
Qed.

Lemma CheckPermission_frame (a : Config) (c : Context) (t : list event) :
  CheckPermission a c t = ((CheckPermission a c []).1, t ++ (CheckPermission a c []).2).
Proof.
  rewrite !CheckPermission_unfold, (GetUserName_frame a c t).
  destruct (GetUserName a c []) as [[user|e] evs]; simpl; [|done].
  by rewrite app_assoc.
Qed.

(** Of the request, [GetUserName] reads the Authorization header only. *)
Lemma GetUserName_reads (a1 a2 : Config) (c1 c2 : Context) (t : list event) :
  AuthType a1 = AuthType a2 → token c1 = token c2 →
  GetUserName a1 c1 t = GetUserName a2 c2 t.
Proof.
  intros Hty Htok.
  unfold GetUserName, getUserNameBasicAuth, getUserNameJwtAuth, Http.BasicAuth.
  fold (token c1) (token c2). by rewrite Hty, Htok.
Qed.

(** A well-formed header: "Basic " in any case, then the base64 text of
    user:password. *)
Lemma BasicAuth_credentials (r : Http.Request) (pre enc user pass : string) :
  Http.Get (Http.Header r) "Authorization" = (pre ++ enc)%string →
  Strings.EqualFold pre "Basic " = true →
  Base64.DecodeString Base64.StdEncoding enc
  = inl (list_ascii_of_string (user ++ String ":"%char pass)) →
  Strings.Contains user ":"%char = false →
  Http.BasicAuth r = (user, pass, true).
Proof.
  intros Hauth Hpre Hdec Huser.
  pose proof (EqualFold_length _ _ Hpre) as Hlen.
  unfold Http.BasicAuth, Http.parseBasicAuth. rewrite Hauth. cbv zeta.
  destruct pre as [|p0 pre]; [done|]. rewrite append_String at 1.
  cbn [String.eqb]. rewrite <- Hlen, take_app, drop_app, Hpre.
  rewrite length_append.
  assert ((String.length (String p0 pre) + String.length enc
           <? String.length (String p0 pre))%nat = false) as ->
    by (apply Nat.ltb_ge; lia).
  cbn [orb negb]. rewrite Hdec, string_of_list_ascii_of_string.
  by rewrite (Cut_app _ _ _ Huser).
Qed.

(** Extraction returns a subject on every request but those of [JwtAuth]
    whose Authorization header has no dot. *)
Lemma GetUserName_returns (a : Config) (c : Context) (t : list event) :
  AuthType a ≠ JwtAuth ∨ Strings.Contains (token c) "."%char = true →
  ∃ user logged, GetUserName a c t = (Ret user, t ++ logged).
Proof.
  intros Hdom. rewrite GetUserName_frame.
  destruct (GetUserName a c []) as [[user|e] logged] eqn:E; [by eauto|]. exfalso.
  revert E. unfold GetUserName.
  destruct (Z.eqb_spec (AuthType a) BasicAuth); [by rewrite BasicAuth_username|].
  destruct (Z.eqb_spec (AuthType a) JwtAuth) as [Hty|]; [|done].
  destruct Hdom as [|Hsep]; [done|].
  destruct (Split_sep_second _ _ Hsep) as [seg Hseg].
  destruct (Base64.DecodeString Base64.RawStdEncoding seg) as [body|err] eqn:Hdec.
  - by rewrite (JwtAuth_decoded _ _ _ _ _ Hseg Hdec).
  - by rewrite (JwtAuth_undecodable _ _ _ _ _ Hseg Hdec).
Qed.

(** The answer of the middleware on a request that is not skipped, once
    the subject is known. *)
Lemma MiddlewareWithConfig_enforced
      (config : Config) (next : HandlerFunc) (c : Context)
      (t t' : list event) (user : string) :
  skips config c = false →
  GetUserName config c t = (Ret user, t') →
  MiddlewareWithConfig config next c t =
  let t'' := t' ++ [EvEnforce user (path c) (method c)] in
  match Engine.Enforce (Enforcer config) user (path c) (method c) with
  | Ret (_, Some e) =>
      (Ret (Some (HTTPError Http.StatusInternalServerError (Error e))), t'')
  | Ret (true, None) => next c t''
  | Ret (false, None) => (Ret (Some ErrForbidden), t'')
  | Panic e => (Panic e, t'')
  end.
Proof.
  intros Hskip Huser.
  rewrite MiddlewareWithConfig_unfold, Hskip, CheckPermission_unfold, Huser. simpl.
  destruct (Engine.Enforce _ _ _ _) as [[pass [e|]]|e]; try done; by destruct pass.
Qed.

End PackageLemmas.

(** ** What is forwarded to the enforcer *)

(** Whenever subject extraction yields [user], [CheckPermission] calls
    the enforcer's [Enforce] once, on the triple (user, URL path, method) in
    this order, and its result is what [Enforce] answered, decision and
    error untouched.  The events before the call are those of the
    extraction. *)
Theorem CheckPermission_forwards_triple `{Imports}
        (a : Config) (c : Context) (t t' : list event) (user : string) :
  GetUserName a c t = (Ret user, t') →
  CheckPermission a c t
  = (Engine.Enforce (Enforcer a) user (path c) (method c),
     t' ++ [EvEnforce user (path c) (method c)]).
Proof. intros Huser. by rewrite CheckPermission_unfold, Huser. Qed.

Lemma CheckPermission_forwards_triple_witness :
  CheckPermission (Sample.config Sample.policy JwtAuth) Sample.alice_bearer []
  = (Ret (true, None), [EvEnforce "alice" "/data" "GET"]).
Proof.
  apply (CheckPermission_forwards_triple
           (Sample.config Sample.policy JwtAuth) Sample.alice_bearer [] [] "alice").
  vm_compute. reflexivity.
Defined.

(** ** The three answers of the middleware *)

(** C2. On a request that is not skipped and on which [CheckPermission]
    returns [(pass, err)], the middleware answers with a 500 error carrying
    the error text when [err] is not nil, with [echo.ErrForbidden] (403)
    when [err] is nil and [pass] is false, and with whatever the next
    handler answers when [err] is nil and [pass] is true.  The 500 answer
    is never the 403 answer. *)
Theorem MiddlewareWithConfig_three_answers `{Imports}
        (config : Config) (next : HandlerFunc) (c : Context)
        (t t' : list event) (pass : bool) (err : option error) :
  skips config c = false →
  CheckPermission config c t = (Ret (pass, err), t') →
  MiddlewareWithConfig config next c t
  = match err with
    | Some e => (Ret (Some (HTTPError Http.StatusInternalServerError (Error e))), t')
    | None => if pass then next c t' else (Ret (Some ErrForbidden), t')
    end
  ∧ (∀ e, HTTPError Http.StatusInternalServerError (Error e) ≠ ErrForbidden).
Proof.
  intros Hskip Hcheck. split; [|done].
  rewrite MiddlewareWithConfig_unfold, Hskip, Hcheck.
  by destruct err, pass.
Qed.

Lemma MiddlewareWithConfig_three_answers_witness :
  MiddlewareWithConfig (Sample.config (Sample.broken "invalid request size") BasicAuth)
                       Sample.ok Sample.alice_basic []
  = (Ret (Some (HTTPError 500 "invalid request size")),
     [EvEnforce "alice" "/data" "GET"]).
Proof.
  apply (MiddlewareWithConfig_three_answers
           (Sample.config (Sample.broken "invalid request size") BasicAuth)
           Sample.ok Sample.alice_basic [] [EvEnforce "alice" "/data" "GET"]
           false (Some (otherError "invalid request size"))).
  - reflexivity.
  - vm_compute. reflexivity.
Defined.

(** ** Skipped requests *)

(** C5. When the skip predicate holds of a request, the middleware is the
    next handler: it runs on the trace as it was, so no [Enforce] call (and
    no other event) came before it. *)
Theorem MiddlewareWithConfig_skipped `{Imports}
        (config : Config) (next : HandlerFunc) (c : Context) (t : list event) :
  skips config c = true →
  MiddlewareWithConfig config next c t = next c t.
Proof. intros Hskip. by rewrite MiddlewareWithConfig_unfold, Hskip. Qed.

Lemma MiddlewareWithConfig_skipped_witness :
  MiddlewareWithConfig
    {| Skipper := Some Sample.skip_health; Enforcer := Sample.acl []; AuthType := JwtAuth |}
    Sample.ok (Sample.request "GET" "/health" []) []
  = (Ret None, []).
Proof.
  apply (MiddlewareWithConfig_skipped
           {| Skipper := Some Sample.skip_health; Enforcer := Sample.acl [];
              AuthType := JwtAuth |}
           Sample.ok (Sample.request "GET" "/health" []) []).
  reflexivity.
Defined.

(** ** Defaults *)

(** C9. [Middleware(ce)] is [MiddlewareWithConfig] on the configuration
    with the default skipper, enforcer [ce] and [BasicAuth], and on
    [Config{Enforcer: ce}] as well; a nil [Skipper] behaves as
    [DefaultConfig]'s; and by default no request is skipped: the answer is
    decided by [CheckPermission]. *)
Theorem Middleware_is_default_config `{Imports}
        (ce : Engine.Enforcer) (next : HandlerFunc) (c : Context) (t : list event) :
  Middleware ce next c t
  = MiddlewareWithConfig
      {| Skipper := Some DefaultSkipper; Enforcer := ce; AuthType := BasicAuth |} next c t
  ∧ Middleware ce next c t
  = MiddlewareWithConfig
      {| Skipper := None; Enforcer := ce; AuthType := 0 |} next c t
  ∧ (∀ ty,
       MiddlewareWithConfig {| Skipper := None; Enforcer := ce; AuthType := ty |} next c t
       = MiddlewareWithConfig
           {| Skipper := Skipper DefaultConfig; Enforcer := ce; AuthType := ty |} next c t)
  ∧ skips {| Skipper := Skipper DefaultConfig; Enforcer := ce; AuthType := BasicAuth |} c = false
  ∧ Middleware ce next c t
  = (r ← CheckPermission {| Skipper := None; Enforcer := ce; AuthType := BasicAuth |} c;
     if is_nil r.2 && r.1 then next c
     else match r.2 with
          | Some e => ret (Some (NewHTTPError Http.StatusInternalServerError (Error e)))
          | None => ret (Some ErrForbidden)
          end) t.
Proof.
  split_and!.
  - reflexivity.
  - unfold Middleware. by rewrite !MiddlewareWithConfig_unfold.
  - intros ty. by rewrite !MiddlewareWithConfig_unfold.
  - reflexivity.
  - unfold Middleware. rewrite MiddlewareWithConfig_unfold. simpl.
    unfold skips, DefaultSkipper; simpl. unfold_M.
    rewrite (CheckPermission_config _ {| Skipper := None; Enforcer := ce; AuthType := BasicAuth |})
      by done.
    destruct (CheckPermission _ c t) as [[[pass err]|e] t']; [|done]. simpl.
    destruct (is_nil err && pass); [done|]. by destruct err.
Qed.

(** ** Determinism *)

(** C6. Two invocations of [CheckPermission] under the same [AuthType] and
    the same enforcer, on requests with the same Authorization header, the
    same URL path and the same method, give the same result and cause the
    same events, whatever else differs between the receivers and the
    requests and whatever happened before: no state of the adapter is read
    or written. *)
Theorem CheckPermission_deterministic `{Imports}
        (a1 a2 : Config) (c1 c2 : Context) (t1 t2 : list event) :
  AuthType a1 = AuthType a2 →
  Enforcer a1 = Enforcer a2 →
  token c1 = token c2 →
  path c1 = path c2 →
  method c1 = method c2 →
  ∃ result events,
    CheckPermission a1 c1 t1 = (result, t1 ++ events) ∧
    CheckPermission a2 c2 t2 = (result, t2 ++ events).
Proof.
  intros Hty Hen Htok Hpath Hmeth.
  exists (CheckPermission a1 c1 []).1, (CheckPermission a1 c1 []).2.
  split; [apply CheckPermission_frame|].
  rewrite (CheckPermission_frame a2 c2 t2).
  assert (CheckPermission a1 c1 [] = CheckPermission a2 c2 []) as ->; [|done].
  rewrite !CheckPermission_unfold, Hen, Hpath, Hmeth.
  by rewrite (GetUserName_reads a1 a2 c1 c2 [] Hty Htok).
Qed.

Lemma CheckPermission_deterministic_witness :
  ∃ result events,
    CheckPermission (Sample.config Sample.policy JwtAuth) Sample.alice_bearer []
    = (result, [] ++ events) ∧
    CheckPermission
      {| Skipper := Some Sample.skip_health; Enforcer := Sample.policy; AuthType := 1 |}
      {| Request := {| Http.Method := "GET";
                       Http.URL := {| Url.Path := "/data"; Url.RawQuery := "page=2" |};
                       Http.Header :=
                         <[ "Accept" := ["text/html"] ]>
                           (Http.Header (Request Sample.alice_bearer));
                       Http.Host := "example.com";
                       Http.RemoteAddr := "198.51.100.7:80" |};
         RoutePath := "/:resource";
         ParamValues := ["data"] |}
      [EvEnforce "bob" "/data" "GET"]
    = (result, [EvEnforce "bob" "/data" "GET"] ++ events).
Proof.
  apply CheckPermission_deterministic; vm_compute; reflexivity.
Defined.

(** ** The subject, by authentication type *)

(** Under [BasicAuth], [GetUserName] returns the user name of the
    request's basic-auth header, that is the text before the first colon of
    the decoded credentials.  Under [JwtAuth], when the second
    dot-separated segment of the Authorization header is the base64 text of
    [body], it returns the [sub] member of the claims parsed from [body]. *)
Theorem GetUserName_by_AuthType `{Imports}
        (a : Config) (c : Context) (t : list event) :
  (AuthType a = BasicAuth →
     GetUserName a c t = (Ret (Http.BasicAuth (Request c)).1.1, t) ∧
     ∀ pre enc user pass,
       token c = (pre ++ enc)%string →
       Strings.EqualFold pre "Basic " = true →
       Base64.DecodeString Base64.StdEncoding enc
       = inl (list_ascii_of_string (user ++ String ":"%char pass)) →
       Strings.Contains user ":"%char = false →
       GetUserName a c t = (Ret user, t)) ∧
  (AuthType a = JwtAuth →
     ∀ s0 seg rest body,
       token c = (s0 ++ String "."%char (seg ++ rest))%string →
       Strings.Contains s0 "."%char = false →
       Strings.Contains seg "."%char = false →
       rest = EmptyString ∨ (∃ r, rest = String "."%char r) →
       Base64.DecodeString Base64.RawStdEncoding seg = inl body →
       GetUserName a c t = (Ret (Sub (json_Unmarshal body jwtClaims_zero).1), t)).
Proof.
  split; intros Hty.
  - rewrite (GetUserName_BasicAuth _ _ Hty), BasicAuth_username. split; [done|].
    intros pre enc user pass Htok Hpre Hdec Huser.
    by rewrite (BasicAuth_credentials _ _ _ _ _ Htok Hpre Hdec Huser).
  - intros s0 seg rest body Htok Hs0 Hseg Hrest Hdec.
    rewrite (GetUserName_JwtAuth _ _ Hty).
    apply (JwtAuth_decoded _ _ _ seg); [|done].
    rewrite Htok. by apply Split_second.
Qed.

Lemma GetUserName_by_AuthType_witness :
  GetUserName (Sample.config Sample.policy BasicAuth) Sample.alice_basic []
  = (Ret "alice", []) ∧
  GetUserName (Sample.config Sample.policy JwtAuth) Sample.alice_bearer []
  = (Ret "alice", []).
Proof.
  split.
  - refine (proj2 (proj1 (GetUserName_by_AuthType
                            (Sample.config Sample.policy BasicAuth)
                            Sample.alice_basic []) _)
                  "Basic " "YWxpY2U6c2VjcmV0" "alice" "secret" _ _ _ _);
      vm_compute; reflexivity.
  - refine (proj2 (GetUserName_by_AuthType
                     (Sample.config Sample.policy JwtAuth) Sample.alice_bearer []) _
                  "Bearer eyJhbGciOiJIUzI1NiJ9" "eyJzdWIiOiJhbGljZSJ9" ".c2ln"
                  (list_ascii_of_string Sample.claims_alice) _ _ _ _ _);
      try (vm_compute; reflexivity).
    right. by exists "c2ln".
Defined.

(** ** Requests without usable credentials *)

(** When the request carries no credentials the code can use (under [BasicAuth],
    [BasicAuth()] reports no credentials; under [JwtAuth], the token body
    is not base64, or the claims parsed from it have no [sub]; or
    [AuthType] is neither constant), the adapter does not reject it: the
    subject is the empty string, [Enforce] is called on ("", path, method),
    and the answer to a request that is not skipped is the one the
    enforcer's answer for that triple leads to.  Apart from that call the
    adapter leaves at most log lines. *)
Theorem anonymous_subject_is_forwarded `{Imports}
        (a : Config) (c : Context) (t : list event) :
  (AuthType a = BasicAuth ∧ (Http.BasicAuth (Request c)).2 = false)
  ∨ (AuthType a = JwtAuth ∧
     ∃ seg, Strings.Split (token c) "."%char !! 1%nat = Some seg ∧
            ((∃ err, Base64.DecodeString Base64.RawStdEncoding seg = inr err) ∨
             (∃ body, Base64.DecodeString Base64.RawStdEncoding seg = inl body ∧
                      Sub (json_Unmarshal body jwtClaims_zero).1 = EmptyString)))
  ∨ (AuthType a ≠ BasicAuth ∧ AuthType a ≠ JwtAuth) →
  ∃ logged,
    Forall (λ ev, ∃ format arg, ev = EvLogPrintf format arg) logged ∧
    GetUserName a c t = (Ret EmptyString, t ++ logged) ∧
    CheckPermission a c t
    = (Engine.Enforce (Enforcer a) EmptyString (path c) (method c),
       t ++ logged ++ [EvEnforce EmptyString (path c) (method c)]) ∧
    ∀ next, skips a c = false →
      MiddlewareWithConfig a next c t =
      let t' := t ++ logged ++ [EvEnforce EmptyString (path c) (method c)] in
      match Engine.Enforce (Enforcer a) EmptyString (path c) (method c) with
      | Ret (_, Some e) =>
          (Ret (Some (HTTPError Http.StatusInternalServerError (Error e))), t')
      | Ret (true, None) => next c t'
      | Ret (false, None) => (Ret (Some ErrForbidden), t')
      | Panic e => (Panic e, t')
      end.
Proof.
  intros Hanon.
  assert (∃ logged,
            Forall (λ ev, ∃ format arg, ev = EvLogPrintf format arg) logged ∧
            GetUserName a c t = (Ret EmptyString, t ++ logged)) as (logged & Hlog & Huser).
  { destruct Hanon as [[Hty Hok]|[(Hty & seg & Hseg & Hdec)|[Hty0 Hty1]]].
    - exists []. split; [constructor|].
      rewrite (GetUserName_BasicAuth _ _ Hty), BasicAuth_username.
      by rewrite (BasicAuth_not_ok _ Hok), app_nil_r.
    - rewrite (GetUserName_JwtAuth _ _ Hty).
      destruct Hdec as [[err Herr]|(body & Hbody & Hsub)].
      + exists [EvLogPrintf "token decode failed: %s" err]. split; [by repeat econstructor|].
        by apply (JwtAuth_undecodable _ _ _ seg).
      + exists []. split; [constructor|].
        by rewrite (JwtAuth_decoded _ _ _ seg body), Hsub, app_nil_r.
    - exists []. split; [constructor|].
      rewrite (GetUserName_other _ _ Hty0 Hty1). unfold_M. by rewrite app_nil_r. }
  exists logged. split_and!; [done..| |].
  - by rewrite CheckPermission_unfold, Huser, <- app_assoc.
  - intros next Hskip.
    rewrite (MiddlewareWithConfig_enforced _ _ _ _ _ _ Hskip Huser). by rewrite <- app_assoc.
Qed.

Lemma anonymous_subject_is_forwarded_witness :
  ∃ logged,
    Forall (λ ev, ∃ format arg, ev = EvLogPrintf format arg) logged ∧
    GetUserName (Sample.config Sample.policy JwtAuth) Sample.subless_bearer []
    = (Ret EmptyString, [] ++ logged) ∧
    CheckPermission (Sample.config Sample.policy JwtAuth) Sample.subless_bearer []
    = (Ret (true, None), [] ++ logged ++ [EvEnforce EmptyString "/public" "GET"]) ∧
    ∀ next, skips (Sample.config Sample.policy JwtAuth) Sample.subless_bearer = false →
      MiddlewareWithConfig (Sample.config Sample.policy JwtAuth) next Sample.subless_bearer []
      = next Sample.subless_bearer ([] ++ logged ++ [EvEnforce EmptyString "/public" "GET"]).
Proof.
  apply (anonymous_subject_is_forwarded
           (Sample.config Sample.policy JwtAuth) Sample.subless_bearer []).
  right; left. split; [reflexivity|].
  exists "eyJpc3MiOiJ4In0". split; [vm_compute; reflexivity|].
  right. eexists. split; vm_compute; reflexivity.
Defined.

(** ** Errors: which are returned, which are logged *)

(** Which errors reach the caller.  An error returned by the enforcer reaches the
    caller of the middleware, as a 500 error with the error's text.  A
    token body that fails base64 decoding does not: the failure goes to
    [log.Printf], the subject is the empty string, and that subject is
    forwarded to [Enforce]. *)
Theorem enforcer_errors_returned_decode_errors_logged `{Imports}
        (a : Config) (c : Context) (t : list event) :
  (∀ next user t' pass e,
     skips a c = false →
     GetUserName a c t = (Ret user, t') →
     Engine.Enforce (Enforcer a) user (path c) (method c) = Ret (pass, Some e) →
     MiddlewareWithConfig a next c t
     = (Ret (Some (HTTPError Http.StatusInternalServerError (Error e))),
        t' ++ [EvEnforce user (path c) (method c)])) ∧
  (∀ seg err,
     AuthType a = JwtAuth →
     Strings.Split (token c) "."%char !! 1%nat = Some seg →
     Base64.DecodeString Base64.RawStdEncoding seg = inr err →
     GetUserName a c t
     = (Ret EmptyString, t ++ [EvLogPrintf "token decode failed: %s" err]) ∧
     CheckPermission a c t
     = (Engine.Enforce (Enforcer a) EmptyString (path c) (method c),
        t ++ [EvLogPrintf "token decode failed: %s" err;
              EvEnforce EmptyString (path c) (method c)])).
Proof.
  split.
  - intros next user t' pass e Hskip Huser Henf.
    rewrite (MiddlewareWithConfig_enforced _ _ _ _ _ _ Hskip Huser), Henf.
    by destruct pass.
  - intros seg err Hty Hseg Hdec.
    assert (GetUserName a c t
            = (Ret EmptyString, t ++ [EvLogPrintf "token decode failed: %s" err])) as Huser.
    { rewrite (GetUserName_JwtAuth _ _ Hty). by apply (JwtAuth_undecodable _ _ _ seg). }
    split; [done|]. by rewrite CheckPermission_unfold, Huser, <- app_assoc.
Qed.

Lemma enforcer_errors_returned_decode_errors_logged_witness :
  MiddlewareWithConfig (Sample.config (Sample.broken "invalid request size") JwtAuth)
                       Sample.ok Sample.alice_bearer []
  = (Ret (Some (HTTPError 500 "invalid request size")), [EvEnforce "alice" "/data" "GET"])
  ∧ GetUserName (Sample.config Sample.policy JwtAuth) Sample.bad_bearer []
  = (Ret EmptyString, [EvLogPrintf "token decode failed: %s" (CorruptInputError 0)]).
Proof.
  split.
  - apply (proj1 (enforcer_errors_returned_decode_errors_logged
                    (Sample.config (Sample.broken "invalid request size") JwtAuth)
                    Sample.alice_bearer [])
                 Sample.ok "alice" [] false (otherError "invalid request size"));
      vm_compute; reflexivity.
  - apply (proj2 (enforcer_errors_returned_decode_errors_logged
                    (Sample.config Sample.policy JwtAuth) Sample.bad_bearer [])
                 "@@@" (CorruptInputError 0));
      vm_compute; reflexivity.
Defined.

(** C3 fails on the code.  The request [Sample.bad_bearer] has the token
    body "@@@", which is not base64.  Nothing of the failure reaches a
    caller: [GetUserName] returns the empty subject, [CheckPermission]
    returns the enforcer's answer for that subject without an error, and
    the middleware hands the request to the next handler; only the log has
    a line.  The request carries invalid credentials and is served, where
    the comment on [Middleware] promises a refusal. *)
Lemma decode_failure_is_swallowed :
  let a := Sample.config Sample.policy JwtAuth in
  let c := Sample.bad_bearer in
  AuthType a = JwtAuth ∧
  Strings.Split (token c) "."%char !! 1%nat = Some "@@@" ∧
  Base64.DecodeString Base64.RawStdEncoding "@@@" = inr (CorruptInputError 0) ∧
  GetUserName a c []
  = (Ret EmptyString, [EvLogPrintf "token decode failed: %s" (CorruptInputError 0)]) ∧
  CheckPermission a c []
  = (Ret (true, None),
     [EvLogPrintf "token decode failed: %s" (CorruptInputError 0);
      EvEnforce EmptyString "/public" "GET"]) ∧
  MiddlewareWithConfig a Sample.ok c []
  = (Ret None,
     [EvLogPrintf "token decode failed: %s" (CorruptInputError 0);
      EvEnforce EmptyString "/public" "GET"]).
Proof. vm_compute. repeat split. Qed.

(** ** The unchecked index *)

(** C7 fails on the code.  Under [JwtAuth], a request whose Authorization
    header has no dot (one without the header among them) makes
    [splitToken[1]] panic with "index out of range [1] with length 1";
    [GetUserName] returns no string, and the panic goes up through
    [CheckPermission] and, unless the request is skipped, the middleware. *)
Theorem GetUserName_JwtAuth_index_out_of_range `{Imports}
        (a : Config) (c : Context) (t : list event) :
  AuthType a = JwtAuth →
  Strings.Contains (token c) "."%char = false →
  GetUserName a c t = (Panic (IndexOutOfRange 1 1), t) ∧
  CheckPermission a c t = (Panic (IndexOutOfRange 1 1), t) ∧
  ∀ next, skips a c = false →
    MiddlewareWithConfig a next c t = (Panic (IndexOutOfRange 1 1), t).
Proof.
  intros Hty Hno.
  assert (GetUserName a c t = (Panic (IndexOutOfRange 1 1), t)) as Huser.
  { rewrite (GetUserName_JwtAuth _ _ Hty). by apply JwtAuth_no_separator. }
  assert (CheckPermission a c t = (Panic (IndexOutOfRange 1 1), t)) as Hcheck.
  { by rewrite CheckPermission_unfold, Huser. }
  split_and!; [done..|].
  intros next Hskip. by rewrite MiddlewareWithConfig_unfold, Hskip, Hcheck.
Qed.

Lemma GetUserName_JwtAuth_index_out_of_range_witness :
  GetUserName (Sample.config Sample.policy JwtAuth) Sample.anonymous []
  = (Panic (IndexOutOfRange 1 1), []) ∧
  CheckPermission (Sample.config Sample.policy JwtAuth) Sample.anonymous []
  = (Panic (IndexOutOfRange 1 1), []) ∧
  ∀ next, skips (Sample.config Sample.policy JwtAuth) Sample.anonymous = false →
    MiddlewareWithConfig (Sample.config Sample.policy JwtAuth) next Sample.anonymous []
    = (Panic (IndexOutOfRange 1 1), []).
Proof.
  apply (GetUserName_JwtAuth_index_out_of_range
           (Sample.config Sample.policy JwtAuth) Sample.anonymous []);
    vm_compute; reflexivity.
Defined.

(** * Further properties of the package *)

Section MoreLemmas.
Context `{Imports}.

(** What [getUserNameJwtAuth] does is decided by the segment at index 1. *)
Lemma JwtAuth_segment (a : Config) (c : Context) (t : list event) (seg : string) :
  Strings.Split (token c) "."%char !! 1%nat = Some seg →
  getUserNameJwtAuth a c t
  = match Base64.DecodeString Base64.RawStdEncoding seg with
    | inl body => (Ret (Sub (json_Unmarshal body jwtClaims_zero).1), t)
    | inr err => (Ret EmptyString, t ++ [EvLogPrintf "token decode failed: %s" err])
    end.
Proof.
  intros Hseg.
  destruct (Base64.DecodeString Base64.RawStdEncoding seg) as [body|err] eqn:Hdec.
  - by apply (JwtAuth_decoded _ _ _ seg).
  - by apply (JwtAuth_undecodable _ _ _ seg).
Qed.

(** A header that does not begin with "Basic " (in any case) carries no
    basic credentials. *)
Lemma BasicAuth_other_scheme (r : Http.Request) :
  Strings.EqualFold (Strings.take 6 (Http.Get (Http.Header r) "Authorization")) "Basic "
  = false →
  Http.BasicAuth r = (EmptyString, EmptyString, false).
Proof.
  intros Hscheme. unfold Http.BasicAuth, Http.parseBasicAuth. cbv zeta.
  destruct (String.eqb _ EmptyString); [done|].
  change (String.length "Basic ") with 6%nat.
  by rewrite Hscheme, orb_true_r.
Qed.

Lemma has_foreign_Contains (s : string) (x : ascii) :
  Strings.Contains s x = true → Base64.foreign x = true → Base64.has_foreign s = true.
Proof.
  intros Hin Hx. induction s as [|c s IH]; simpl in *; [done|].
  destruct (Ascii.eqb_spec c x) as [->|_]; [by rewrite Hx|].
  rewrite (IH Hin). apply orb_true_r.
Qed.

End MoreLemmas.

(** ** What the token extraction does not look at *)

(** X1. Under [JwtAuth] the subject is decided by the second dot-separated
    segment of the Authorization header alone: the text before the first
    dot (scheme and token header) and the text from the second dot on (the
    signature) are never examined, and a third segment need not exist.
    Two requests that agree on that segment, the path and the method get
    the same subject, the same answer from [CheckPermission] and the same
    events. *)
Theorem JwtAuth_reads_second_segment_only `{Imports}
        (a : Config) (c1 c2 : Context) (t : list event)
        (h1 h2 seg rest1 rest2 : string) :
  AuthType a = JwtAuth →
  token c1 = (h1 ++ String "."%char (seg ++ rest1))%string →
  token c2 = (h2 ++ String "."%char (seg ++ rest2))%string →
  Strings.Contains h1 "."%char = false →
  Strings.Contains h2 "."%char = false →
  Strings.Contains seg "."%char = false →
  rest1 = EmptyString ∨ (∃ r, rest1 = String "."%char r) →
  rest2 = EmptyString ∨ (∃ r, rest2 = String "."%char r) →
  GetUserName a c1 t = GetUserName a c2 t ∧
  (path c1 = path c2 → method c1 = method c2 →
   CheckPermission a c1 t = CheckPermission a c2 t).
Proof.
  intros Hty Htok1 Htok2 Hh1 Hh2 Hseg Hrest1 Hrest2.
  assert (GetUserName a c1 t = GetUserName a c2 t) as Huser.
  { rewrite !(GetUserName_JwtAuth _ _ Hty).
    rewrite (JwtAuth_segment a c1 t seg), (JwtAuth_segment a c2 t seg); [done|..].
    - rewrite Htok2. by apply Split_second.
    - rewrite Htok1. by apply Split_second. }
  split; [done|]. intros Hpath Hmeth.
  by rewrite !CheckPermission_unfold, Huser, Hpath, Hmeth.
Qed.

Lemma JwtAuth_reads_second_segment_only_witness :
  GetUserName (Sample.config Sample.policy JwtAuth) Sample.alice_bearer []
  = GetUserName (Sample.config Sample.policy JwtAuth) Sample.alice_forged [] ∧
  (path Sample.alice_bearer = path Sample.alice_forged →
   method Sample.alice_bearer = method Sample.alice_forged →
   CheckPermission (Sample.config Sample.policy JwtAuth) Sample.alice_bearer []
   = CheckPermission (Sample.config Sample.policy JwtAuth) Sample.alice_forged []).
Proof.
  apply (JwtAuth_reads_second_segment_only
           (Sample.config Sample.policy JwtAuth) Sample.alice_bearer Sample.alice_forged []
           "Bearer eyJhbGciOiJIUzI1NiJ9" "Bearer bm9uZQ" "eyJzdWIiOiJhbGljZSJ9"
           ".c2ln" ".Zm9yZ2Vk");
    try (vm_compute; reflexivity).
  - right. by exists "c2ln".
  - right. by exists "Zm9yZ2Vk".
Defined.

(** X2. Under [BasicAuth] the password is never examined: two requests
    whose credentials have the same user name, whatever their passwords,
    get the same subject, and with the same path and method the same answer
    from [CheckPermission] and the same events. *)
Theorem BasicAuth_password_not_examined `{Imports}
        (a : Config) (c1 c2 : Context) (t : list event)
        (pre1 enc1 pre2 enc2 user pass1 pass2 : string) :
  AuthType a = BasicAuth →
  token c1 = (pre1 ++ enc1)%string →
  token c2 = (pre2 ++ enc2)%string →
  Strings.EqualFold pre1 "Basic " = true →
  Strings.EqualFold pre2 "Basic " = true →
  Base64.DecodeString Base64.StdEncoding enc1
  = inl (list_ascii_of_string (user ++ String ":"%char pass1)) →
  Base64.DecodeString Base64.StdEncoding enc2
  = inl (list_ascii_of_string (user ++ String ":"%char pass2)) →
  Strings.Contains user ":"%char = false →
  GetUserName a c1 t = (Ret user, t) ∧
  GetUserName a c2 t = (Ret user, t) ∧
  (path c1 = path c2 → method c1 = method c2 →
   CheckPermission a c1 t = CheckPermission a c2 t).
Proof.
  intros Hty Htok1 Htok2 Hpre1 Hpre2 Hdec1 Hdec2 Huser.
  assert (GetUserName a c1 t = (Ret user, t)) as H1.
  { rewrite (GetUserName_BasicAuth _ _ Hty), BasicAuth_username.
    by rewrite (BasicAuth_credentials _ _ _ _ _ Htok1 Hpre1 Hdec1 Huser). }
  assert (GetUserName a c2 t = (Ret user, t)) as H2.
  { rewrite (GetUserName_BasicAuth _ _ Hty), BasicAuth_username.
    by rewrite (BasicAuth_credentials _ _ _ _ _ Htok2 Hpre2 Hdec2 Huser). }
  split_and!; [done..|]. intros Hpath Hmeth.
  by rewrite !CheckPermission_unfold, H1, H2, Hpath, Hmeth.
Qed.

Lemma BasicAuth_password_not_examined_witness :
  GetUserName (Sample.config Sample.policy BasicAuth) Sample.alice_basic []
  = (Ret "alice", []) ∧
  GetUserName (Sample.config Sample.policy BasicAuth) Sample.alice_wrong_password []
  = (Ret "alice", []) ∧
  (path Sample.alice_basic = path Sample.alice_wrong_password →
   method Sample.alice_basic = method Sample.alice_wrong_password →
   CheckPermission (Sample.config Sample.policy BasicAuth) Sample.alice_basic []
   = CheckPermission (Sample.config Sample.policy BasicAuth) Sample.alice_wrong_password []).
Proof.
  apply (BasicAuth_password_not_examined
           (Sample.config Sample.policy BasicAuth)
           Sample.alice_basic Sample.alice_wrong_password []
           "Basic " "YWxpY2U6c2VjcmV0" "Basic " "YWxpY2U6d3Jvbmc="
           "alice" "secret" "wrong");
    vm_compute; reflexivity.
Defined.

(** ** The alphabet of the token body *)

(** X3. The token body is decoded with the standard alphabet and without
    padding.  A body with a [-] or a [_] (the URL-safe alphabet) or with a
    [=] (padding) is not decoded, wherever that byte stands: the failure
    is logged and the subject is the empty string. *)
Theorem JwtAuth_urlsafe_or_padded_body_is_anonymous `{Imports}
        (a : Config) (c : Context) (t : list event) (seg : string) :
  AuthType a = JwtAuth →
  Strings.Split (token c) "."%char !! 1%nat = Some seg →
  Strings.Contains seg "-"%char = true ∨
  Strings.Contains seg "_"%char = true ∨
  Strings.Contains seg "="%char = true →
  ∃ n, GetUserName a c t
       = (Ret EmptyString,
          t ++ [EvLogPrintf "token decode failed: %s" (CorruptInputError n)]).
Proof.
  intros Hty Hseg Hbyte.
  assert (Base64.has_foreign seg = true) as Hforeign.
  { destruct Hbyte as [Hin|[Hin|Hin]]; by apply (has_foreign_Contains _ _ Hin). }
  destruct (DecodeString_raw_foreign _ Hforeign) as [n Hdec].
  exists n. rewrite (GetUserName_JwtAuth _ _ Hty).
  by apply (JwtAuth_undecodable _ _ _ seg).
Qed.

Lemma JwtAuth_urlsafe_or_padded_body_is_anonymous_witness :
  ∃ n, GetUserName (Sample.config Sample.policy JwtAuth) Sample.urlsafe_bearer []
       = (Ret EmptyString,
          [] ++ [EvLogPrintf "token decode failed: %s" (CorruptInputError n)]).
Proof.
  apply (JwtAuth_urlsafe_or_padded_body_is_anonymous
           (Sample.config Sample.policy JwtAuth) Sample.urlsafe_bearer []
           "eyJzdWIiOiJib2J-PyJ9").
  - reflexivity.
  - vm_compute. reflexivity.
  - left. vm_compute. reflexivity.
Defined.

(** ** Where the extraction panics *)

(** X4. [GetUserName] panics on exactly one kind of request: [JwtAuth]
    with an Authorization header value that has no dot.  Under [BasicAuth],
    under any other [AuthType], and under [JwtAuth] with a dot anywhere in
    the header, it returns. *)
Theorem GetUserName_panics_iff `{Imports}
        (a : Config) (c : Context) (t : list event) :
  (∃ e t', GetUserName a c t = (Panic e, t'))
  ↔ AuthType a = JwtAuth ∧ Strings.Contains (token c) "."%char = false.
Proof.
  split.
  - intros (e & t' & Hpanic).
    destruct (decide (AuthType a = JwtAuth)) as [Hty|Hty].
    + split; [done|].
      destruct (Strings.Contains (token c) "."%char) eqn:Hsep; [|done].
      destruct (GetUserName_returns a c t (or_intror Hsep)) as (user & logged & Hret).
      congruence.
    + destruct (GetUserName_returns a c t (or_introl Hty)) as (user & logged & Hret).
      congruence.
  - intros [Hty Hsep]. exists (IndexOutOfRange 1 1), t.
    rewrite (GetUserName_JwtAuth _ _ Hty). by apply JwtAuth_no_separator.
Qed.

(** ** Failing closed *)

(** X5. On a request that is not skipped, unless the enforcer answers
    (true, nil) for the extracted subject, the next handler has no part in
    the answer: the answer is the same for every next handler, and it is
    never success.  This covers denial, an enforcer error (also one that
    comes with pass = true), a panic of the enforcer and a panic of the
    extraction. *)
Theorem MiddlewareWithConfig_fails_closed `{Imports}
        (config : Config) (c : Context) (t : list event) :
  skips config c = false →
  (∀ user t', GetUserName config c t = (Ret user, t') →
              Engine.Enforce (Enforcer config) user (path c) (method c)
              ≠ Ret (true, None)) →
  ∃ answer t'',
    answer ≠ Ret None ∧
    ∀ next, MiddlewareWithConfig config next c t = (answer, t'').
Proof.
  intros Hskip Hdeny.
  destruct (GetUserName config c t) as [[user|e] t'] eqn:Huser.
  - specialize (Hdeny user t' eq_refl).
    destruct (Engine.Enforce (Enforcer config) user (path c) (method c))
      as [[pass [e|]]|e] eqn:Henf.
    + eexists _, _. split; [|intros next;
        rewrite (MiddlewareWithConfig_enforced _ _ _ _ _ _ Hskip Huser), Henf;
        by destruct pass]. done.
    + destruct pass; [done|].
      eexists _, _. split; [|intros next;
        by rewrite (MiddlewareWithConfig_enforced _ _ _ _ _ _ Hskip Huser), Henf]. done.
    + eexists _, _. split; [|intros next;
        by rewrite (MiddlewareWithConfig_enforced _ _ _ _ _ _ Hskip Huser), Henf]. done.
  - exists (Panic e), t'. split; [done|]. intros next.
    by rewrite MiddlewareWithConfig_unfold, Hskip, CheckPermission_unfold, Huser.
Qed.

Lemma MiddlewareWithConfig_fails_closed_witness :
  ∃ answer t'',
    answer ≠ Ret None ∧
    ∀ next, MiddlewareWithConfig (Sample.config Sample.policy JwtAuth) next
                                 Sample.alice_post []
            = (answer, t'').
Proof.
  apply (MiddlewareWithConfig_fails_closed
           (Sample.config Sample.policy JwtAuth) Sample.alice_post []).
  - reflexivity.
  - intros user t'. vm_compute. intros Huser. injection Huser as <- <-. discriminate.
Defined.

(** ** The answers the middleware makes itself *)



(** ** The default middleware and other schemes *)

(** X7. [Middleware(ce)] reads basic credentials only.  A request whose
    Authorization header does not begin with "Basic " in some case (a
    bearer token, or no header) is mediated as the empty subject: [Enforce]
    is called on ("", path, method) and its answer decides. *)
Theorem Middleware_other_scheme_is_anonymous `{Imports}
        (ce : Engine.Enforcer) (next : HandlerFunc) (c : Context) (t : list event) :
  Strings.EqualFold (Strings.take 6 (token c)) "Basic " = false →
  Middleware ce next c t =
  let t' := t ++ [EvEnforce EmptyString (path c) (method c)] in
  match Engine.Enforce ce EmptyString (path c) (method c) with
  | Ret (_, Some e) =>
      (Ret (Some (HTTPError Http.StatusInternalServerError (Error e))), t')
  | Ret (true, None) => next c t'
  | Ret (false, None) => (Ret (Some ErrForbidden), t')
  | Panic e => (Panic e, t')
  end.
Proof.
  intros Hscheme.
  change (Middleware ce next c t)
    with (MiddlewareWithConfig
            {| Skipper := Some DefaultSkipper; Enforcer := ce; AuthType := BasicAuth |}
            next c t).
  apply MiddlewareWithConfig_enforced; [done|].
  rewrite GetUserName_BasicAuth by done.
  by rewrite BasicAuth_username, (BasicAuth_other_scheme _ Hscheme).
Qed.

Lemma Middleware_other_scheme_is_anonymous_witness :
  Middleware Sample.policy Sample.ok Sample.alice_bearer []
  = (Ret (Some Echo.ErrForbidden), [EvEnforce EmptyString "/data" "GET"]).
Proof.
  apply (Middleware_other_scheme_is_anonymous
           Sample.policy Sample.ok Sample.alice_bearer []).
  vm_compute. reflexivity.
Defined.

(** ** The shape of a permission check *)

(** X8. Whatever the request, [CheckPermission] does one of two things.
    Either it panics on the unchecked index, having left no event and not
    called the enforcer; or it leaves at most one log line and then calls
    [Enforce] exactly once, as its last action, and returns what [Enforce]
    gave.  The enforcer is never called twice and never after a panic. *)
Theorem CheckPermission_one_call `{Imports}
        (a : Config) (c : Context) (t : list event) :
  CheckPermission a c t = (Panic (IndexOutOfRange 1 1), t)
  ∨ ∃ user logged,
      (logged = [] ∨ ∃ err, logged = [EvLogPrintf "token decode failed: %s" err]) ∧
      CheckPermission a c t
      = (Engine.Enforce (Enforcer a) user (path c) (method c),
         t ++ logged ++ [EvEnforce user (path c) (method c)]).
Proof.
  rewrite CheckPermission_unfold. unfold GetUserName.
  destruct (AuthType a =? BasicAuth).
  { right. rewrite BasicAuth_username. eexists _, []. split; [by left|done]. }
  destruct (AuthType a =? JwtAuth); [|right; eexists _, []; split; [by left|done]].
  destruct (Strings.Contains (token c) "."%char) eqn:Hsep.
  - right. destruct (Split_sep_second _ _ Hsep) as [seg Hseg].
    rewrite (JwtAuth_segment a c t seg Hseg).
    destruct (Base64.DecodeString Base64.RawStdEncoding seg) as [body|err].
    + eexists _, []. split; [by left|done].
    + eexists _, [_]. split; [by right; eexists|]. by rewrite <- app_assoc.
  - left. by rewrite (JwtAuth_no_separator _ _ _ Hsep).
Qed.

(** * Where the code falls short of what is said of it *)

(** C1 fails on the code.  Under [JwtAuth], on a request whose
    Authorization header has no dot (one without the header among them),
    [CheckPermission] panics on the unchecked index before it reaches the
    enforcer: it leaves the trace as it found it, so no triple is forwarded
    and no decision is returned.  The defect is the one of C7. *)
Theorem CheckPermission_panics_before_Enforce `{Imports}
        (a : Config) (c : Context) (t : list event) :
  AuthType a = JwtAuth →
  Strings.Contains (token c) "."%char = false →
  CheckPermission a c t = (Panic (IndexOutOfRange 1 1), t) ∧
  ∀ sub obj act,
    EvEnforce sub obj act ∉ drop (length t) (CheckPermission a c t).2.
Proof.
  intros Hty Hsep.
  assert (CheckPermission a c t = (Panic (IndexOutOfRange 1 1), t)) as Hcheck.
  { rewrite CheckPermission_unfold, (GetUserName_JwtAuth _ _ Hty).
    by rewrite (JwtAuth_no_separator _ _ _ Hsep). }
  split; [done|]. intros sub obj act. rewrite Hcheck. simpl.
  rewrite drop_all. apply not_elem_of_nil.
Qed.

Lemma CheckPermission_panics_before_Enforce_witness :
  CheckPermission (Sample.config Sample.policy JwtAuth) Sample.dotless_bearer
                  [EvEnforce "bob" "/data" "GET"]
  = (Panic (IndexOutOfRange 1 1), [EvEnforce "bob" "/data" "GET"]) ∧
  ∀ sub obj act,
    EvEnforce sub obj act
    ∉ drop (length [EvEnforce "bob" "/data" "GET"])
           (CheckPermission (Sample.config Sample.policy JwtAuth) Sample.dotless_bearer
                            [EvEnforce "bob" "/data" "GET"]).2.
Proof.
  apply (CheckPermission_panics_before_Enforce
           (Sample.config Sample.policy JwtAuth) Sample.dotless_bearer
           [EvEnforce "bob" "/data" "GET"]);
    vm_compute; reflexivity.
Defined.

(** C4 fails on the code.  The token of [Sample.urlsafe_bearer] has the
    claims sub = bob~? in its second segment, written as a JWT writes them,
    in the URL-safe alphabet.  The code decodes with the standard alphabet:
    the [-] at byte 15 stops the decoder, and [GetUserName] returns the
    empty string and not the [sub] claim.  The same claims written with the
    standard alphabet's [+] do give bob~?.  And on a request without the
    header [GetUserName] returns nothing: it panics (the defect of C7). *)
Lemma GetUserName_JwtAuth_loses_urlsafe_sub :
  let a := Sample.config Sample.policy JwtAuth in
  Strings.Split (token Sample.urlsafe_bearer) "."%char !! 1%nat
  = Some "eyJzdWIiOiJib2J-PyJ9" ∧
  Base64.DecodeString Base64.RawStdEncoding "eyJzdWIiOiJib2J-PyJ9"
  = inr (CorruptInputError 15) ∧
  GetUserName a Sample.urlsafe_bearer []
  = (Ret EmptyString, [EvLogPrintf "token decode failed: %s" (CorruptInputError 15)]) ∧
  Base64.DecodeString Base64.RawStdEncoding "eyJzdWIiOiJib2J+PyJ9"
  = inl (list_ascii_of_string Sample.claims_bob) ∧
  GetUserName a Sample.standard_bearer [] = (Ret "bob~?", []) ∧
  GetUserName a Sample.anonymous [] = (Panic (IndexOutOfRange 1 1), []).
Proof. vm_compute. repeat split. Qed.

(** C8 fails on the code.  Under [JwtAuth], a request that is not skipped
    and has no Authorization header, or one without a dot, is not forwarded
    as the empty subject: the middleware panics on the unchecked index,
    whatever the enforcer would answer for the empty subject and whatever
    the next handler is.  The defect is the one of C7. *)
Theorem JwtAuth_without_token_body_is_not_forwarded `{Imports}
        (skipper : option Echo.Skipper) (e : Engine.Enforcer)
        (next : HandlerFunc) (c : Context) (t : list event) :
  let config := {| Skipper := skipper; Enforcer := e; AuthType := JwtAuth |} in
  skips config c = false →
  Strings.Contains (token c) "."%char = false →
  MiddlewareWithConfig config next c t = (Panic (IndexOutOfRange 1 1), t).
Proof.
  intros config Hskip Hsep.
  rewrite MiddlewareWithConfig_unfold, Hskip, CheckPermission_unfold.
  rewrite (GetUserName_JwtAuth config c eq_refl).
  by rewrite (JwtAuth_no_separator _ _ _ Hsep).
Qed.

Lemma JwtAuth_without_token_body_is_not_forwarded_witness :
  MiddlewareWithConfig (Sample.config Sample.policy JwtAuth) Sample.ok Sample.anonymous []
  = (Panic (IndexOutOfRange 1 1), []) ∧
  Engine.Enforce Sample.policy EmptyString (path Sample.anonymous) (method Sample.anonymous)
  = Ret (true, None).
Proof.
  split.
  - apply (JwtAuth_without_token_body_is_not_forwarded
             None Sample.policy Sample.ok Sample.anonymous []);
      vm_compute; reflexivity.
  - vm_compute. reflexivity.
Defined.
